(** * Pinned-memory gateway: [csrc/mem_alloc.cpp]

    A shallow embedding of the two wrappers [alloc_pinned_ptr] and
    [free_pinned_ptr] around the CUDA host-memory API, and the properties
    the specification states about them.

    The CUDA runtime is an external collaborator.  The wrappers are
    therefore written as small programs over two runtime requests
    ([cudaHostAlloc], [cudaFreeHost]); an interpreter runs such a program
    against any implementation of the runtime interface, threading the
    runtime's own state and recording every request that reaches it.  A
    second, larger language adds the process's static storage, to state
    that the wrappers neither read nor write any. *)

From Stdlib Require Import ZArith String Ascii List Bool Lia.
From Stdlib Require Import DecimalString DecimalZ.
Import ListNotations.

Local Open Scope Z_scope.
Local Open Scope string_scope.

(* ===================================================================== *)
(** ** C++ values used by the wrappers *)
(* ===================================================================== *)

Module Cxx.

(** [size_t], [unsigned int] and [uintptr_t] are unsigned machine
    integers; the wrappers never compute with them, so they are carried
    as their mathematical value. *)
Definition size_t := Z.
Definition unsigned_int := Z.
Definition uintptr_t := Z.

(** [void*]: a typed pointer, kept apart from the integer handle.  Its
    only content is its bit pattern. *)
Record void_ptr : Type := VoidPtr { addr : Z }.

Definition nullptr : void_ptr := VoidPtr 0.

(** [reinterpret_cast<uintptr_t>(p)] and [reinterpret_cast<void*>(u)]:
    the bit pattern is kept as it is. *)
Definition reinterpret_cast_uintptr_t (p : void_ptr) : uintptr_t := addr p.
Definition reinterpret_cast_void_ptr (u : uintptr_t) : void_ptr := VoidPtr u.

(** [std::to_string(int)]: decimal digits, with a leading minus sign for
    a negative value. *)
Definition to_string (n : Z) : string := NilZero.string_of_int (Z.to_int n).

(** The reading inverse of [to_string], used to say that the text still
    determines the number. *)
Definition of_string (s : string) : option Z :=
  option_map Z.of_int (NilZero.int_of_string s).

(** The exception classes of [<stdexcept>]. *)
Variant exception_class : Type :=
| std_logic_error
| std_invalid_argument
| std_domain_error
| std_length_error
| std_out_of_range
| std_runtime_error
| std_range_error
| std_overflow_error
| std_underflow_error.

(** A thrown exception object: its dynamic class and its [what()]. *)
Record exception : Type := Exception {
  exc_class : exception_class;
  what : string
}.

(** [std::runtime_error(msg)] *)
Definition runtime_error (msg : string) : exception :=
  {| exc_class := std_runtime_error; what := msg |}.

(** [contains s sub]: [sub] occurs in [s] as a contiguous substring. *)
Fixpoint contains (s sub : string) : bool :=
  if prefix sub s then true
  else match s with
       | EmptyString => false
       | String _ s' => contains s' sub
       end.

End Cxx.
Export Cxx.

(* ===================================================================== *)
(** ** The CUDA runtime interface *)
(* ===================================================================== *)

Module Cuda.

(** [cudaError_t], by its numeric value; [cudaSuccess] is 0. *)
Definition cudaError_t := Z.
Definition cudaSuccess : cudaError_t := 0.
Definition cudaErrorInvalidValue : cudaError_t := 1.
Definition cudaErrorMemoryAllocation : cudaError_t := 2.

(** What [cudaHostAlloc(&p, size, flags)] answers: what it stored
    through the out-parameter ([None] when it left [*p] untouched) and
    its status. *)
Definition alloc_response : Type := option void_ptr * cudaError_t.

(** An implementation of the runtime: its own state (the pinned-memory
    pool and whatever else it keeps) and the two entry points. *)
Record Runtime : Type := {
  World : Type;
  hostAlloc : World -> size_t -> unsigned_int -> alloc_response * World;
  hostFree : World -> void_ptr -> cudaError_t * World
}.

(** A request that reached the runtime, with the arguments it carried. *)
Variant request : Type :=
| HostAllocRequest (size : size_t) (flags : unsigned_int)
| FreeHostRequest (p : void_ptr).

End Cuda.
Export Cuda.

(* ===================================================================== *)
(** ** Programs over the runtime *)
(* ===================================================================== *)

Module Prog.

(** A program either returns, throws, or issues one runtime request and
    continues with the answer. *)
Inductive prog (R : Type) : Type :=
| Ret (r : R)
| Throw (e : exception)
| HostAlloc (size : size_t) (flags : unsigned_int)
            (k : alloc_response -> prog R)
| FreeHost (p : void_ptr) (k : cudaError_t -> prog R).

Arguments Ret {R} r.
Arguments Throw {R} e.
Arguments HostAlloc {R} size flags k.
Arguments FreeHost {R} p k.

Fixpoint bind {A B : Type} (m : prog A) (f : A -> prog B) : prog B :=
  match m with
  | Ret a => f a
  | Throw e => Throw e
  | HostAlloc size flags k => HostAlloc size flags (fun r => bind (k r) f)
  | FreeHost p k => FreeHost p (fun r => bind (k r) f)
  end.

(** How a run ended. *)
Variant outcome (R : Type) : Type :=
| Returned (r : R)
| Raised (e : exception).

Arguments Returned {R} r.
Arguments Raised {R} e.

(** The result of a run: the requests issued, in order, how the program
    ended, and the state the runtime was left in. *)
Record result (R W : Type) : Type := Result {
  requests : list request;
  ending : outcome R;
  final : W
}.

Arguments Result {R W} requests ending final.
Arguments requests {R W} r.
Arguments ending {R W} r.
Arguments final {R W} r.

Definition logged {R W : Type} (c : request) (r : result R W) : result R W :=
  Result (c :: requests r) (ending r) (final r).

Fixpoint run {R : Type} (rt : Runtime) (p : prog R) (w : World rt)
  : result R (World rt) :=
  match p with
  | Ret r => Result [] (Returned r) w
  | Throw e => Result [] (Raised e) w
  | HostAlloc size flags k =>
      let '(resp, w') := hostAlloc rt w size flags in
      logged (HostAllocRequest size flags) (run rt (k resp) w')
  | FreeHost p k =>
      let '(err, w') := hostFree rt w p in
      logged (FreeHostRequest p) (run rt (k err) w')
  end.

Declare Scope prog_scope.
Delimit Scope prog_scope with prog.
Notation "x <- c ;; k" := (bind c (fun x => k))
  (at level 61, c at next level, right associativity) : prog_scope.
Notation "' pat <- c ;; k" := (bind c (fun x => match x with pat => k end))
  (at level 61, pat pattern, c at next level, right associativity) : prog_scope.

End Prog.
Export Prog.

Local Open Scope prog_scope.

(* ===================================================================== *)
(** ** The wrappers of [mem_alloc.cpp] *)
(* ===================================================================== *)

(** [cudaHostAlloc(&ptr, size, flags)] where the local [ptr] currently
    holds [pHost]: the value of [ptr] after the call, and the status. *)
Definition cudaHostAlloc (pHost : void_ptr) (size : size_t) (flags : unsigned_int)
  : prog (void_ptr * cudaError_t) :=
  HostAlloc size flags
    (fun '(stored, err) =>
       Ret (match stored with Some p => p | None => pHost end, err)).

(** [cudaFreeHost(p)] *)
Definition cudaFreeHost (p : void_ptr) : prog cudaError_t :=
  FreeHost p (fun err => Ret err).

(** [uintptr_t alloc_pinned_ptr(size_t size, unsigned int flags)] *)
Definition alloc_pinned_ptr (size : size_t) (flags : unsigned_int) : prog uintptr_t :=
  let ptr := nullptr in
  '(ptr, err) <- cudaHostAlloc ptr size flags ;;
  if negb (err =? cudaSuccess)%Z
  then Throw (runtime_error ("cudaHostAlloc failed: " ++ to_string err))
  else Ret (reinterpret_cast_uintptr_t ptr).

(** [void free_pinned_ptr(uintptr_t ptr)] *)
Definition free_pinned_ptr (ptr : uintptr_t) : prog unit :=
  err <- cudaFreeHost (reinterpret_cast_void_ptr ptr) ;;
  if negb (err =? cudaSuccess)%Z
  then Throw (runtime_error ("cudaFreeHost failed: " ++ to_string err))
  else Ret tt.

(** The two failures the specification names [AllocationError] and
    [ReleaseError] are the exceptions thrown at lines 10 and 18. *)
Definition AllocationError (err : cudaError_t) : exception :=
  runtime_error ("cudaHostAlloc failed: " ++ to_string err).

Definition ReleaseError (err : cudaError_t) : exception :=
  runtime_error ("cudaFreeHost failed: " ++ to_string err).

(** The runtime's answer to the request a wrapper issues from state [w]. *)
Definition alloc_stored (rt : Runtime) (w : World rt) (size : size_t)
  (flags : unsigned_int) : option void_ptr :=
  fst (fst (hostAlloc rt w size flags)).

Definition alloc_status (rt : Runtime) (w : World rt) (size : size_t)
  (flags : unsigned_int) : cudaError_t :=
  snd (fst (hostAlloc rt w size flags)).

Definition alloc_world (rt : Runtime) (w : World rt) (size : size_t)
  (flags : unsigned_int) : World rt :=
  snd (hostAlloc rt w size flags).

Definition free_status (rt : Runtime) (w : World rt) (p : void_ptr) : cudaError_t :=
  fst (hostFree rt w p).

Definition free_world (rt : Runtime) (w : World rt) (p : void_ptr) : World rt :=
  snd (hostFree rt w p).

(* ===================================================================== *)
(** ** A reference runtime *)
(* ===================================================================== *)

(** A small executable stand-in for the CUDA runtime, used to instantiate
    the general statements below on concrete runs.  It is not part of the
    repository: it keeps a table of live pinned regions, hands out
    increasing addresses, and rejects unknown flag bits, requests beyond
    its capacity and pointers it does not know.  Whether a null pointer is
    accepted by [free] is a switch, since runtimes differ on it. *)
Module Sim.

Record pool : Type := Pool {
  live : list (Z * Z);      (* base address, byte length *)
  next : Z;                 (* next base address handed out *)
  avail : Z                 (* pinned bytes still available *)
}.

(** cudaHostAllocPortable | cudaHostAllocMapped | cudaHostAllocWriteCombined *)
Definition valid_flags (flags : unsigned_int) : bool :=
  (0 <=? flags)%Z && (flags <? 8)%Z.

Definition is_live (w : pool) (p : void_ptr) : bool :=
  existsb (fun r => (fst r =? addr p)%Z) (live w).

Definition alloc (w : pool) (size : size_t) (flags : unsigned_int)
  : alloc_response * pool :=
  if negb (valid_flags flags) then ((None, cudaErrorInvalidValue), w)
  else if (size =? 0)%Z then ((None, cudaSuccess), w)
  else if (avail w <? size)%Z then ((None, cudaErrorMemoryAllocation), w)
  else ((Some (VoidPtr (next w)), cudaSuccess),
        {| live := (next w, size) :: live w;
           next := next w + size;
           avail := avail w - size |}).

Definition region_bytes (w : pool) (p : void_ptr) : Z :=
  fold_right (fun r acc => if (fst r =? addr p)%Z then snd r + acc else acc)
             0 (live w).

Definition free (null_ok : bool) (w : pool) (p : void_ptr) : cudaError_t * pool :=
  if is_live w p then
    (cudaSuccess,
     {| live := filter (fun r => negb (fst r =? addr p)%Z) (live w);
        next := next w;
        avail := avail w + region_bytes w p |})
  else if (addr p =? 0)%Z && null_ok then (cudaSuccess, w)
  else (cudaErrorInvalidValue, w).

Definition runtime (null_ok : bool) : Runtime :=
  {| World := pool; hostAlloc := alloc; hostFree := free null_ok |}.

Definition fresh : pool := {| live := []; next := 4096; avail := 65536 |}.

End Sim.

(* ===================================================================== *)
(** ** The wrappers in a process with static storage *)
(* ===================================================================== *)

(** A C++ function body may, besides calling the runtime, read and write
    objects of static storage duration (globals, function-local statics,
    caches).  [sprog G R] are the programs that can: [G] is the content of
    that storage, [Load] reads it and [Store] replaces it.  [srun] runs
    such a program from a runtime state and a storage content, and gives
    both back at the end.  The two wrappers are translated again into
    this larger language, statement by statement. *)
Module Static.

Inductive sprog (G R : Type) : Type :=
| SRet (r : R)
| SThrow (e : exception)
| SHostAlloc (size : size_t) (flags : unsigned_int)
             (k : alloc_response -> sprog G R)
| SFreeHost (p : void_ptr) (k : cudaError_t -> sprog G R)
| Load (k : G -> sprog G R)
| Store (g : G) (k : sprog G R).

Arguments SRet {G R} r.
Arguments SThrow {G R} e.
Arguments SHostAlloc {G R} size flags k.
Arguments SFreeHost {G R} p k.
Arguments Load {G R} k.
Arguments Store {G R} g k.

Fixpoint sbind {G A B : Type} (m : sprog G A) (f : A -> sprog G B) : sprog G B :=
  match m with
  | SRet a => f a
  | SThrow e => SThrow e
  | SHostAlloc size flags k => SHostAlloc size flags (fun r => sbind (k r) f)
  | SFreeHost p k => SFreeHost p (fun r => sbind (k r) f)
  | Load k => Load (fun g => sbind (k g) f)
  | Store g k => Store g (sbind k f)
  end.

Fixpoint srun {G R : Type} (rt : Runtime) (p : sprog G R) (w : World rt) (g : G)
  : result R (World rt * G) :=
  match p with
  | SRet r => Result [] (Returned r) (w, g)
  | SThrow e => Result [] (Raised e) (w, g)
  | SHostAlloc size flags k =>
      let '(resp, w') := hostAlloc rt w size flags in
      logged (HostAllocRequest size flags) (srun rt (k resp) w' g)
  | SFreeHost p k =>
      let '(err, w') := hostFree rt w p in
      logged (FreeHostRequest p) (srun rt (k err) w' g)
  | Load k => srun rt (k g) w g
  | Store g' k => srun rt k w g'
  end.

Declare Scope sprog_scope.
Delimit Scope sprog_scope with sprog.
Notation "x <- c ;; k" := (sbind c (fun x => k))
  (at level 61, c at next level, right associativity) : sprog_scope.
Notation "' pat <- c ;; k" := (sbind c (fun x => match x with pat => k end))
  (at level 61, pat pattern, c at next level, right associativity) : sprog_scope.

(** [cudaHostAlloc(&ptr, size, flags)] with [ptr] holding [pHost]. *)
Definition cudaHostAlloc {G : Type} (pHost : void_ptr) (size : size_t)
  (flags : unsigned_int) : sprog G (void_ptr * cudaError_t) :=
  SHostAlloc size flags
    (fun '(stored, err) =>
       SRet (match stored with Some p => p | None => pHost end, err)).

(** [cudaFreeHost(p)] *)
Definition cudaFreeHost {G : Type} (p : void_ptr) : sprog G cudaError_t :=
  SFreeHost p (fun err => SRet err).

(** [uintptr_t alloc_pinned_ptr(size_t size, unsigned int flags)]: the
    body names no object other than its parameters and its locals. *)
Definition alloc_pinned_ptr {G : Type} (size : size_t) (flags : unsigned_int)
  : sprog G uintptr_t :=
  (let ptr := nullptr in
   '(ptr, err) <- cudaHostAlloc ptr size flags ;;
   if negb (err =? cudaSuccess)%Z
   then SThrow (runtime_error ("cudaHostAlloc failed: " ++ to_string err))
   else SRet (reinterpret_cast_uintptr_t ptr))%sprog.

(** [void free_pinned_ptr(uintptr_t ptr)] *)
Definition free_pinned_ptr {G : Type} (ptr : uintptr_t) : sprog G unit :=
  (err <- cudaFreeHost (reinterpret_cast_void_ptr ptr) ;;
   if negb (err =? cudaSuccess)%Z
   then SThrow (runtime_error ("cudaFreeHost failed: " ++ to_string err))
   else SRet tt)%sprog.

(** For contrast, and not part of the repository: an allocator that pools.
    It remembers the last handle it returned in a static variable and
    hands that handle out again instead of asking the runtime. *)
Definition pooled_alloc_pinned_ptr (size : size_t) (flags : unsigned_int)
  : sprog (option uintptr_t) uintptr_t :=
  Load (fun cached =>
    match cached with
    | Some handle => SRet handle
    | None =>
        (handle <- alloc_pinned_ptr size flags ;;
         Store (Some handle) (SRet handle))%sprog
    end).

End Static.

(* ===================================================================== *)
(** ** Basic facts *)
(* ===================================================================== *)

Example to_string_0 : to_string 0 = "0".
Proof. reflexivity. Qed.

Example to_string_719 : to_string 719 = "719".
Proof. reflexivity. Qed.

Example to_string_neg : to_string (-12) = "-12".
Proof. reflexivity. Qed.

(** Reading back the text of a number gives the number. *)
Lemma of_string_to_string (n : Z) : of_string (to_string n) = Some n.
Proof.
  unfold of_string, to_string.
  rewrite NilZero.isi.
  - simpl. now rewrite DecimalZ.of_to.
  - destruct n as [|p|p]; simpl; try discriminate.
    intros [= H]. now apply (DecimalPos.Unsigned.to_uint_nonnil p).
  - destruct n as [|p|p]; simpl; try discriminate.
    intros [= H]. now apply (DecimalPos.Unsigned.to_uint_nonnil p).
Qed.

Lemma to_string_inj (m n : Z) : to_string m = to_string n -> m = n.
Proof.
  intros H.
  assert (E : Some m = Some n)
    by (rewrite <- (of_string_to_string m), <- (of_string_to_string n); now rewrite H).
  now injection E.
Qed.

Lemma prefix_refl (s : string) : prefix s s = true.
Proof.
  induction s as [|a s IH]; simpl; [reflexivity|].
  destruct (ascii_dec a a) as [_|N]; [exact IH | now elim N].
Qed.

Lemma contains_unfold (s sub : string) :
  contains s sub =
  if prefix sub s then true
  else match s with
       | EmptyString => false
       | String _ s' => contains s' sub
       end.
Proof. now destruct s. Qed.

Lemma contains_self (s : string) : contains s s = true.
Proof. rewrite contains_unfold. now rewrite prefix_refl. Qed.

(** A string contains each of its suffixes. *)
Lemma contains_suffix (pre s : string) : contains (pre ++ s) s = true.
Proof.
  induction pre as [|a pre IH].
  - apply contains_self.
  - rewrite contains_unfold. cbn [append]. rewrite IH.
    now destruct (prefix s (String a (pre ++ s))).
Qed.

Lemma ne_success_spec (err : cudaError_t) :
  negb (err =? cudaSuccess)%Z = true <-> err <> cudaSuccess.
Proof.
  rewrite negb_true_iff. split.
  - intros H ->. now rewrite Z.eqb_refl in H.
  - intros H. now apply Z.eqb_neq.
Qed.

(* ===================================================================== *)
(** ** Running the wrappers *)
(* ===================================================================== *)

(** A sequence runs its first part, then the rest from the state the first
    part left, unless the first part threw. *)
Lemma run_bind {A B : Type} (rt : Runtime) (m : prog A) (f : A -> prog B)
  (w : World rt) :
  run rt (bind m f) w =
  match ending (run rt m w) with
  | Returned a =>
      let r' := run rt (f a) (final (run rt m w)) in
      Result (requests (run rt m w) ++ requests r') (ending r') (final r')
  | Raised e => Result (requests (run rt m w)) (Raised e) (final (run rt m w))
  end.
Proof.
  revert w. induction m as [a|e|size flags k IH|p k IH]; intros w; simpl.
  - now destruct (run rt (f a) w).
  - reflexivity.
  - destruct (hostAlloc rt w size flags) as [resp w']. rewrite IH.
    unfold logged. simpl. now destruct (ending (run rt (k resp) w')).
  - destruct (hostFree rt w p) as [err w']. rewrite IH.
    unfold logged. simpl. now destruct (ending (run rt (k err) w')).
Qed.

(** The complete run of [alloc_pinned_ptr]. *)
Lemma run_alloc_pinned_ptr (rt : Runtime) (w : World rt) (size : size_t)
  (flags : unsigned_int) :
  run rt (alloc_pinned_ptr size flags) w =
  Result [HostAllocRequest size flags]
         (if negb (alloc_status rt w size flags =? cudaSuccess)%Z
          then Raised (AllocationError (alloc_status rt w size flags))
          else Returned (reinterpret_cast_uintptr_t
                           (match alloc_stored rt w size flags with
                            | Some p => p
                            | None => nullptr
                            end)))
         (alloc_world rt w size flags).
Proof.
  unfold alloc_status, alloc_stored, alloc_world, alloc_pinned_ptr. simpl.
  destruct (hostAlloc rt w size flags) as [[stored err] w']. simpl.
  now destruct (negb (err =? cudaSuccess)%Z).
Qed.

(** The complete run of [free_pinned_ptr]. *)
Lemma run_free_pinned_ptr (rt : Runtime) (w : World rt) (ptr : uintptr_t) :
  run rt (free_pinned_ptr ptr) w =
  Result [FreeHostRequest (reinterpret_cast_void_ptr ptr)]
         (if negb (free_status rt w (reinterpret_cast_void_ptr ptr) =? cudaSuccess)%Z
          then Raised (ReleaseError (free_status rt w (reinterpret_cast_void_ptr ptr)))
          else Returned tt)
         (free_world rt w (reinterpret_cast_void_ptr ptr)).
Proof.
  unfold free_status, free_world, free_pinned_ptr. simpl.
  destruct (hostFree rt w (reinterpret_cast_void_ptr ptr)) as [err w']. simpl.
  now destruct (negb (err =? cudaSuccess)%Z).
Qed.

(** The two casts are inverse to each other. *)
Lemma reinterpret_cast_round_trip (p : void_ptr) :
  reinterpret_cast_void_ptr (reinterpret_cast_uintptr_t p) = p.
Proof. now destruct p. Qed.

Lemma reinterpret_cast_round_trip_int (u : uintptr_t) :
  reinterpret_cast_uintptr_t (reinterpret_cast_void_ptr u) = u.
Proof. reflexivity. Qed.

(** Facts about the reference runtime. *)
Lemma sim_alloc_makes_live (null_ok : bool) (w : Sim.pool) (size : size_t)
  (flags : unsigned_int) (stored : option void_ptr) (w' : Sim.pool) :
  0 < size -> Sim.valid_flags flags = true ->
  hostAlloc (Sim.runtime null_ok) w size flags = ((stored, cudaSuccess), w') ->
  exists p, stored = Some p /\ Sim.is_live w' p = true.
Proof.
  intros Hsize Hflags. simpl. unfold Sim.alloc. rewrite Hflags. simpl.
  destruct (Z.eqb_spec size 0) as [E|_]; [lia|].
  destruct (Sim.avail w <? size)%Z; [discriminate|].
  intros [= <- <-]. eexists; split; [reflexivity|].
  unfold Sim.is_live. simpl. now rewrite Z.eqb_refl.
Qed.

Lemma sim_free_live (null_ok : bool) (w : Sim.pool) (p : void_ptr) :
  Sim.is_live w p = true ->
  fst (hostFree (Sim.runtime null_ok) w p) = cudaSuccess.
Proof. intros H. simpl. unfold Sim.free. now rewrite H. Qed.

Lemma prefix_app (p s : string) : prefix p (p ++ s) = true.
Proof.
  induction p as [|a p IH]; simpl; [now destruct s|].
  destruct (ascii_dec a a) as [_|N]; [exact IH | now elim N].
Qed.

(** How [alloc_pinned_ptr] ends, by the status the runtime reported. *)
Lemma alloc_ending_failure (rt : Runtime) (w : World rt) (size : size_t)
  (flags : unsigned_int) :
  alloc_status rt w size flags <> cudaSuccess ->
  ending (run rt (alloc_pinned_ptr size flags) w) =
  Raised (AllocationError (alloc_status rt w size flags)).
Proof.
  intros H. rewrite run_alloc_pinned_ptr. simpl.
  apply ne_success_spec in H. now rewrite H.
Qed.

Lemma alloc_ending_success (rt : Runtime) (w : World rt) (size : size_t)
  (flags : unsigned_int) :
  alloc_status rt w size flags = cudaSuccess ->
  ending (run rt (alloc_pinned_ptr size flags) w) =
  Returned (reinterpret_cast_uintptr_t
              (match alloc_stored rt w size flags with
               | Some p => p
               | None => nullptr
               end)).
Proof. intros H. rewrite run_alloc_pinned_ptr. simpl. now rewrite H. Qed.

(** How [free_pinned_ptr] ends, by the status the runtime reported. *)
Lemma free_ending_failure (rt : Runtime) (w : World rt) (ptr : uintptr_t) :
  free_status rt w (reinterpret_cast_void_ptr ptr) <> cudaSuccess ->
  ending (run rt (free_pinned_ptr ptr) w) =
  Raised (ReleaseError (free_status rt w (reinterpret_cast_void_ptr ptr))).
Proof.
  intros H. rewrite run_free_pinned_ptr. simpl.
  apply ne_success_spec in H. now rewrite H.
Qed.

Lemma free_ending_success (rt : Runtime) (w : World rt) (ptr : uintptr_t) :
  free_status rt w (reinterpret_cast_void_ptr ptr) = cudaSuccess ->
  ending (run rt (free_pinned_ptr ptr) w) = Returned tt.
Proof. intros H. rewrite run_free_pinned_ptr. simpl. now rewrite H. Qed.

(** Whatever a wrapper raises is the error of the reported status, and
    that status is not cudaSuccess. *)
Lemma alloc_raised_inv (rt : Runtime) (w : World rt) (size : size_t)
  (flags : unsigned_int) (e : exception) :
  ending (run rt (alloc_pinned_ptr size flags) w) = Raised e ->
  alloc_status rt w size flags <> cudaSuccess /\
  e = AllocationError (alloc_status rt w size flags).
Proof.
  intros H.
  destruct (Z.eq_dec (alloc_status rt w size flags) cudaSuccess) as [E|N].
  - rewrite (alloc_ending_success rt w size flags E) in H. discriminate.
  - rewrite (alloc_ending_failure rt w size flags N) in H.
    injection H as <-. now split.
Qed.

Lemma free_raised_inv (rt : Runtime) (w : World rt) (ptr : uintptr_t)
  (e : exception) :
  ending (run rt (free_pinned_ptr ptr) w) = Raised e ->
  free_status rt w (reinterpret_cast_void_ptr ptr) <> cudaSuccess /\
  e = ReleaseError (free_status rt w (reinterpret_cast_void_ptr ptr)).
Proof.
  intros H.
  destruct (Z.eq_dec (free_status rt w (reinterpret_cast_void_ptr ptr)) cudaSuccess)
    as [E|N].
  - rewrite (free_ending_success rt w ptr E) in H. discriminate.
  - rewrite (free_ending_failure rt w ptr N) in H.
    injection H as <-. now split.
Qed.

(* ===================================================================== *)
(** ** Error conditions *)
(* ===================================================================== *)

(** C1.  For every size and flags, [alloc_pinned_ptr] raises exactly when
    cudaHostAlloc reports a status other than cudaSuccess.  What it raises
    is the [AllocationError] of that status, whose message contains the
    status written in decimal (the number can be read back from that
    text).  When the runtime reports cudaSuccess the call returns a handle
    and raises nothing. *)
Theorem alloc_raises_iff_runtime_fails (rt : Runtime) (w : World rt)
  (size : size_t) (flags : unsigned_int) :
  let st := alloc_status rt w size flags in
  let r := run rt (alloc_pinned_ptr size flags) w in
  ((exists e, ending r = Raised e) <-> st <> cudaSuccess) /\
  (forall e, ending r = Raised e ->
     e = AllocationError st /\ contains (what e) (to_string st) = true) /\
  (st = cudaSuccess -> exists handle, ending r = Returned handle) /\
  of_string (to_string st) = Some st.
Proof.
  intros st r. subst r st.
  split; [split|split; [|split]].
  - intros [e He]. now apply (alloc_raised_inv rt w size flags e).
  - intros N. eexists. now apply alloc_ending_failure.
  - intros e He. destruct (alloc_raised_inv rt w size flags e He) as [_ ->].
    split; [reflexivity | apply contains_suffix].
  - intros E. eexists. now apply alloc_ending_success.
  - apply of_string_to_string.
Qed.

Lemma alloc_raises_iff_runtime_fails_witness :
  exists e,
    ending (run (Sim.runtime true) (alloc_pinned_ptr 4096 64) Sim.fresh) = Raised e /\
    what e = "cudaHostAlloc failed: 1".
Proof.
  destruct (alloc_raises_iff_runtime_fails (Sim.runtime true) Sim.fresh 4096 64)
    as [Hiff [Hmsg _]].
  destruct (proj2 Hiff) as [e He]; [vm_compute; discriminate|].
  exists e. split; [exact He|].
  destruct (Hmsg e He) as [-> _]. reflexivity.
Defined.

(** C2.  For every handle, [free_pinned_ptr] raises exactly when
    cudaFreeHost reports a status other than cudaSuccess.  What it raises
    is the [ReleaseError] of that status, whose message contains the
    status written in decimal.  When the runtime reports cudaSuccess the
    call returns normally, with no value. *)
Theorem free_raises_iff_runtime_fails (rt : Runtime) (w : World rt)
  (ptr : uintptr_t) :
  let st := free_status rt w (reinterpret_cast_void_ptr ptr) in
  let r := run rt (free_pinned_ptr ptr) w in
  ((exists e, ending r = Raised e) <-> st <> cudaSuccess) /\
  (forall e, ending r = Raised e ->
     e = ReleaseError st /\ contains (what e) (to_string st) = true) /\
  (st = cudaSuccess -> ending r = Returned tt) /\
  of_string (to_string st) = Some st.
Proof.
  intros st r. subst r st.
  split; [split|split; [|split]].
  - intros [e He]. now apply (free_raised_inv rt w ptr e).
  - intros N. eexists. now apply free_ending_failure.
  - intros e He. destruct (free_raised_inv rt w ptr e He) as [_ ->].
    split; [reflexivity | apply contains_suffix].
  - intros E. now apply free_ending_success.
  - apply of_string_to_string.
Qed.

Lemma free_raises_iff_runtime_fails_witness :
  exists e,
    ending (run (Sim.runtime true) (free_pinned_ptr 12345) Sim.fresh) = Raised e /\
    what e = "cudaFreeHost failed: 1".
Proof.
  destruct (free_raises_iff_runtime_fails (Sim.runtime true) Sim.fresh 12345)
    as [Hiff [Hmsg _]].
  destruct (proj2 Hiff) as [e He]; [vm_compute; discriminate|].
  exists e. split; [exact He|].
  destruct (Hmsg e He) as [-> _]. reflexivity.
Defined.

(* ===================================================================== *)
(** ** What reaches the runtime, and what comes back *)
(* ===================================================================== *)

(** C3.  For every size and flags, the one request [alloc_pinned_ptr]
    issues is cudaHostAlloc with that very size and those very flags
    (whatever their values: nothing is checked first), and when the
    runtime stored a pointer and reported cudaSuccess, the handle
    returned is that pointer's bit pattern: casting the handle back
    yields the pointer again. *)
Theorem alloc_forwards_arguments_and_returns_pointer (rt : Runtime)
  (w : World rt) (size : size_t) (flags : unsigned_int) :
  let r := run rt (alloc_pinned_ptr size flags) w in
  requests r = [HostAllocRequest size flags] /\
  (forall p,
     alloc_stored rt w size flags = Some p ->
     alloc_status rt w size flags = cudaSuccess ->
     ending r = Returned (addr p) /\
     forall handle, ending r = Returned handle ->
                    reinterpret_cast_void_ptr handle = p).
Proof.
  intros r. subst r. split.
  - now rewrite run_alloc_pinned_ptr.
  - intros p Hp Hst.
    rewrite (alloc_ending_success rt w size flags Hst), Hp.
    split; [reflexivity|].
    intros handle [= <-]. apply reinterpret_cast_round_trip.
Qed.

Lemma alloc_forwards_arguments_and_returns_pointer_witness :
  requests (run (Sim.runtime true) (alloc_pinned_ptr 4096 0) Sim.fresh)
  = [HostAllocRequest 4096 0] /\
  ending (run (Sim.runtime true) (alloc_pinned_ptr 4096 0) Sim.fresh)
  = Returned 4096.
Proof.
  destruct (alloc_forwards_arguments_and_returns_pointer
              (Sim.runtime true) Sim.fresh 4096 0) as [Hreq Hret].
  split; [exact Hreq|].
  apply (Hret (VoidPtr 4096)); reflexivity.
Defined.

(** C4.  For every handle, the one request [free_pinned_ptr] issues is
    cudaFreeHost on the pointer obtained by casting the handle: its bit
    pattern is the handle, unchanged. *)
Theorem free_forwards_handle_as_pointer (rt : Runtime) (w : World rt)
  (ptr : uintptr_t) :
  exists p,
    requests (run rt (free_pinned_ptr ptr) w) = [FreeHostRequest p] /\
    p = reinterpret_cast_void_ptr ptr /\
    addr p = ptr.
Proof.
  exists (reinterpret_cast_void_ptr ptr).
  rewrite run_free_pinned_ptr. now repeat split.
Qed.

(** C6.  Each wrapper issues exactly one runtime request per invocation,
    whatever the runtime answers: one cudaHostAlloc for
    [alloc_pinned_ptr], one cudaFreeHost for [free_pinned_ptr], with
    nothing before or after it, and the runtime is left in the state in
    which that single request left it. *)
Theorem one_runtime_request_per_invocation (rt : Runtime) (w : World rt)
  (size : size_t) (flags : unsigned_int) (ptr : uintptr_t) :
  let ra := run rt (alloc_pinned_ptr size flags) w in
  let rf := run rt (free_pinned_ptr ptr) w in
  length (requests ra) = 1%nat /\
  requests ra = [HostAllocRequest size flags] /\
  final ra = alloc_world rt w size flags /\
  length (requests rf) = 1%nat /\
  requests rf = [FreeHostRequest (reinterpret_cast_void_ptr ptr)] /\
  final rf = free_world rt w (reinterpret_cast_void_ptr ptr).
Proof.
  intros ra rf. subst ra rf.
  rewrite run_alloc_pinned_ptr, run_free_pinned_ptr. now repeat split.
Qed.

(** C10.  [alloc_pinned_ptr] does not look at the pointer on the success
    path: when the runtime reports cudaSuccess and the pointer is null
    (left at its initial value, or stored as null), the call returns the
    handle 0 and does not raise. *)
Theorem alloc_success_with_null_pointer_returns_zero (rt : Runtime)
  (w : World rt) (size : size_t) (flags : unsigned_int) :
  alloc_status rt w size flags = cudaSuccess ->
  alloc_stored rt w size flags = None \/
  alloc_stored rt w size flags = Some nullptr ->
  ending (run rt (alloc_pinned_ptr size flags) w) = Returned 0.
Proof.
  intros Hst Hp. rewrite (alloc_ending_success rt w size flags Hst).
  now destruct Hp as [-> | ->].
Qed.

Lemma alloc_success_with_null_pointer_returns_zero_witness :
  ending (run (Sim.runtime true) (alloc_pinned_ptr 0 0) Sim.fresh) = Returned 0.
Proof.
  apply (alloc_success_with_null_pointer_returns_zero
           (Sim.runtime true) Sim.fresh 0 0).
  - reflexivity.
  - left. reflexivity.
Defined.

(* ===================================================================== *)
(** ** Allocation followed by release *)
(* ===================================================================== *)

Section RoundTrip.

(** A runtime in which a successful allocation of a positive size with
    valid flags stores a pointer to a region that is then live, and in
    which freeing a live region succeeds. *)
Variable rt : Runtime.
Variable valid_flags : unsigned_int -> Prop.
Variable live : World rt -> void_ptr -> Prop.

Hypothesis alloc_makes_live :
  forall (w : World rt) (size : size_t) (flags : unsigned_int)
         (stored : option void_ptr) (w' : World rt),
    0 < size -> valid_flags flags ->
    hostAlloc rt w size flags = ((stored, cudaSuccess), w') ->
    exists p, stored = Some p /\ live w' p.

Hypothesis free_live_succeeds :
  forall (w : World rt) (p : void_ptr),
    live w p -> fst (hostFree rt w p) = cudaSuccess.

(** C5.  For all size > 0 and valid flags, if [alloc_pinned_ptr] succeeds
    and returns the handle [A], then [free_pinned_ptr A], run immediately
    afterwards, succeeds and does not raise; the same holds for the two
    calls written as one sequence. *)
Theorem alloc_then_free_succeeds (w : World rt) (size : size_t)
  (flags : unsigned_int) (A : uintptr_t) :
  0 < size -> valid_flags flags ->
  ending (run rt (alloc_pinned_ptr size flags) w) = Returned A ->
  ending (run rt (free_pinned_ptr A)
              (final (run rt (alloc_pinned_ptr size flags) w))) = Returned tt /\
  ending (run rt (a <- alloc_pinned_ptr size flags ;; free_pinned_ptr a) w)
  = Returned tt.
Proof.
  intros Hsize Hflags HA.
  assert (Hfree : ending (run rt (free_pinned_ptr A)
                     (final (run rt (alloc_pinned_ptr size flags) w)))
                  = Returned tt).
  { rewrite run_alloc_pinned_ptr in HA |- *. simpl in HA |- *.
    unfold alloc_status, alloc_stored, alloc_world in *.
    destruct (hostAlloc rt w size flags) as [[stored err] w'] eqn:E.
    simpl in HA |- *.
    destruct (Z.eqb_spec err cudaSuccess) as [->|N]; [|discriminate].
    simpl in HA. injection HA as <-.
    destruct (alloc_makes_live w size flags stored w' Hsize Hflags E)
      as [p [-> Hlive]].
    apply free_ending_success. unfold free_status.
    rewrite reinterpret_cast_round_trip.
    now apply free_live_succeeds. }
  split; [exact Hfree|].
  rewrite run_bind, HA. simpl. exact Hfree.
Qed.

End RoundTrip.

Lemma alloc_then_free_succeeds_witness :
  ending (run (Sim.runtime false) (free_pinned_ptr 4096)
              (final (run (Sim.runtime false) (alloc_pinned_ptr 4096 0) Sim.fresh)))
  = Returned tt /\
  ending (run (Sim.runtime false)
              (a <- alloc_pinned_ptr 4096 0 ;; free_pinned_ptr a) Sim.fresh)
  = Returned tt.
Proof.
  apply (alloc_then_free_succeeds (Sim.runtime false)
           (fun flags => Sim.valid_flags flags = true)
           (fun w p => Sim.is_live w p = true)
           (sim_alloc_makes_live false) (sim_free_live false)
           Sim.fresh 4096 0 4096).
  - lia.
  - reflexivity.
  - reflexivity.
Defined.

(* ===================================================================== *)
(** ** Releasing the null handle *)
(* ===================================================================== *)

(** On a runtime that accepts a null pointer, [free_pinned_ptr 0] returns
    normally: the wrapper has no check of its own for the handle 0. *)
Lemma free_null_accepted_by_runtime :
  ending (run (Sim.runtime true) (free_pinned_ptr 0) Sim.fresh) = Returned tt /\
  ~ (exists e,
       ending (run (Sim.runtime true) (free_pinned_ptr 0) Sim.fresh) = Raised e).
Proof.
  split; [reflexivity|].
  intros [e He]. vm_compute in He. discriminate.
Qed.

(** C7 (as amended).  [free_pinned_ptr 0] hands the null pointer to
    cudaFreeHost and raises the [ReleaseError] of the reported status
    exactly when the runtime rejects it; when the runtime accepts the null
    pointer the call returns normally. *)
Theorem free_null_follows_runtime (rt : Runtime) (w : World rt) :
  let r := run rt (free_pinned_ptr 0) w in
  requests r = [FreeHostRequest nullptr] /\
  (ending r = Raised (ReleaseError (free_status rt w nullptr)) <->
   free_status rt w nullptr <> cudaSuccess) /\
  (ending r = Returned tt <-> free_status rt w nullptr = cudaSuccess).
Proof.
  intros r. subst r.
  split; [now rewrite run_free_pinned_ptr|].
  destruct (Z.eq_dec (free_status rt w nullptr) cudaSuccess) as [E|N].
  - rewrite (free_ending_success rt w 0 E). split; split; intros H.
    + discriminate.
    + now elim H.
    + exact E.
    + reflexivity.
  - rewrite (free_ending_failure rt w 0 N). split; split; intros H.
    + exact N.
    + reflexivity.
    + discriminate.
    + now elim N.
Qed.

Lemma free_null_follows_runtime_witness :
  ending (run (Sim.runtime false) (free_pinned_ptr 0) Sim.fresh)
  = Raised (ReleaseError cudaErrorInvalidValue).
Proof.
  destruct (free_null_follows_runtime (Sim.runtime false) Sim.fresh)
    as [_ [Hfail _]].
  apply (proj2 Hfail). vm_compute. discriminate.
Defined.

(* ===================================================================== *)
(** ** No state of the wrappers' own *)
(* ===================================================================== *)

(** In the larger language the wrappers run as they do in the smaller
    one, and the static storage comes back as it was given. *)
Lemma srun_alloc_pinned_ptr {G : Type} (rt : Runtime) (w : World rt) (g : G)
  (size : size_t) (flags : unsigned_int) :
  Static.srun rt (Static.alloc_pinned_ptr size flags) w g =
  Result (requests (run rt (alloc_pinned_ptr size flags) w))
         (ending (run rt (alloc_pinned_ptr size flags) w))
         (final (run rt (alloc_pinned_ptr size flags) w), g).
Proof.
  unfold Static.alloc_pinned_ptr, alloc_pinned_ptr. simpl.
  destruct (hostAlloc rt w size flags) as [[stored err] w']. simpl.
  now destruct (negb (err =? cudaSuccess)%Z).
Qed.

Lemma srun_free_pinned_ptr {G : Type} (rt : Runtime) (w : World rt) (g : G)
  (ptr : uintptr_t) :
  Static.srun rt (Static.free_pinned_ptr ptr) w g =
  Result (requests (run rt (free_pinned_ptr ptr) w))
         (ending (run rt (free_pinned_ptr ptr) w))
         (final (run rt (free_pinned_ptr ptr) w), g).
Proof.
  unfold Static.free_pinned_ptr, free_pinned_ptr. simpl.
  destruct (hostFree rt w (reinterpret_cast_void_ptr ptr)) as [err w']. simpl.
  now destruct (negb (err =? cudaSuccess)%Z).
Qed.

(** The property below is not automatic in this language.  The pooling
    allocator, run twice with the same arguments against the same runtime
    in the same state, ends differently when the static storage differs,
    issues no request at all when its pool is filled, and leaves the
    storage changed when it was empty. *)
Lemma pooled_alloc_depends_on_static_storage :
  ending (Static.srun (Sim.runtime true)
            (Static.pooled_alloc_pinned_ptr 256 0) Sim.fresh None)
  <> ending (Static.srun (Sim.runtime true)
               (Static.pooled_alloc_pinned_ptr 256 0) Sim.fresh (Some 7)) /\
  requests (Static.srun (Sim.runtime true)
              (Static.pooled_alloc_pinned_ptr 256 0) Sim.fresh (Some 7)) = [] /\
  snd (final (Static.srun (Sim.runtime true)
                (Static.pooled_alloc_pinned_ptr 256 0) Sim.fresh None)) <> None.
Proof. vm_compute. repeat split; discriminate. Qed.

(** C8.  The wrappers keep no state of their own.  Run in a process with
    static storage of any type and content, each wrapper leaves that
    storage exactly as it was and leaves the runtime in the state its one
    request produced; and what can be observed of the call (the request
    issued, and how the call ended: the handle, the normal return, or the
    exception with its message) is determined by the arguments and the
    runtime's answer to that request alone: two runs with equal
    arguments, on any two runtimes in any two states and with any two
    contents of static storage, that receive equal answers end
    identically. *)
Theorem wrappers_keep_no_state {G1 G2 : Type}
  (rt1 rt2 : Runtime) (w1 : World rt1) (w2 : World rt2) (g1 : G1) (g2 : G2)
  (size : size_t) (flags : unsigned_int) (ptr : uintptr_t) :
  let a1 := Static.srun rt1 (Static.alloc_pinned_ptr size flags) w1 g1 in
  let a2 := Static.srun rt2 (Static.alloc_pinned_ptr size flags) w2 g2 in
  let f1 := Static.srun rt1 (Static.free_pinned_ptr ptr) w1 g1 in
  let f2 := Static.srun rt2 (Static.free_pinned_ptr ptr) w2 g2 in
  final a1 = (alloc_world rt1 w1 size flags, g1) /\
  final f1 = (free_world rt1 w1 (reinterpret_cast_void_ptr ptr), g1) /\
  (fst (hostAlloc rt1 w1 size flags) = fst (hostAlloc rt2 w2 size flags) ->
   ending a1 = ending a2 /\ requests a1 = requests a2) /\
  (fst (hostFree rt1 w1 (reinterpret_cast_void_ptr ptr))
   = fst (hostFree rt2 w2 (reinterpret_cast_void_ptr ptr)) ->
   ending f1 = ending f2 /\ requests f1 = requests f2).
Proof.
  intros a1 a2 f1 f2. subst a1 a2 f1 f2.
  rewrite !srun_alloc_pinned_ptr, !srun_free_pinned_ptr.
  rewrite !run_alloc_pinned_ptr, !run_free_pinned_ptr. cbn [requests ending final].
  split; [reflexivity|]. split; [reflexivity|].
  split; intros H.
  - unfold alloc_status, alloc_stored. now rewrite H.
  - unfold free_status. now rewrite H.
Qed.

Lemma wrappers_keep_no_state_witness :
  ending (Static.srun (Sim.runtime true) (Static.alloc_pinned_ptr 512 1)
            Sim.fresh (Some 7))
  = ending (Static.srun (Sim.runtime false) (Static.alloc_pinned_ptr 512 1)
              {| Sim.live := [(8192, 64)]; Sim.next := 4096; Sim.avail := 1024 |}
              [1; 2; 3]) /\
  ending (Static.srun (Sim.runtime true) (Static.free_pinned_ptr 12345)
            Sim.fresh (Some 7))
  = ending (Static.srun (Sim.runtime false) (Static.free_pinned_ptr 12345)
              {| Sim.live := [(8192, 64)]; Sim.next := 4096; Sim.avail := 1024 |}
              [1; 2; 3]).
Proof.
  destruct (wrappers_keep_no_state
              (Sim.runtime true) (Sim.runtime false) Sim.fresh
              {| Sim.live := [(8192, 64)]; Sim.next := 4096; Sim.avail := 1024 |}
              (Some 7) [1; 2; 3] 512 1 12345) as [_ [_ [Ha Hf]]].
  split.
  - apply Ha. reflexivity.
  - apply Hf. reflexivity.
Defined.

(* ===================================================================== *)
(** ** The two errors share one class *)
(* ===================================================================== *)

(** C9.  Whatever [alloc_pinned_ptr] and [free_pinned_ptr] raise has the
    same class, std::runtime_error.  The message of the first is
    "cudaHostAlloc failed: " followed by the status in decimal, that of
    the second "cudaFreeHost failed: " followed by the status in decimal;
    each message starts with its own prefix and not with the other, so the
    two always differ, while the classes never do. *)
Theorem errors_share_class_and_differ_by_prefix
  (rt : Runtime) (w : World rt) (size : size_t) (flags : unsigned_int)
  (rt' : Runtime) (w' : World rt') (ptr : uintptr_t) (e1 e2 : exception) :
  ending (run rt (alloc_pinned_ptr size flags) w) = Raised e1 ->
  ending (run rt' (free_pinned_ptr ptr) w') = Raised e2 ->
  exc_class e1 = std_runtime_error /\
  exc_class e2 = std_runtime_error /\
  what e1 = "cudaHostAlloc failed: " ++ to_string (alloc_status rt w size flags) /\
  what e2 = "cudaFreeHost failed: "
            ++ to_string (free_status rt' w' (reinterpret_cast_void_ptr ptr)) /\
  prefix "cudaHostAlloc failed: " (what e1) = true /\
  prefix "cudaFreeHost failed: " (what e1) = false /\
  prefix "cudaFreeHost failed: " (what e2) = true /\
  prefix "cudaHostAlloc failed: " (what e2) = false /\
  what e1 <> what e2.
Proof.
  intros H1 H2.
  destruct (alloc_raised_inv rt w size flags e1 H1) as [_ ->].
  destruct (free_raised_inv rt' w' ptr e2 H2) as [_ ->].
  unfold AllocationError, ReleaseError, runtime_error. simpl what. simpl exc_class.
  repeat split.
  - apply (prefix_app "cudaHostAlloc failed: ").
  - apply (prefix_app "cudaFreeHost failed: ").
  - intros H. simpl in H. discriminate.
Qed.

Lemma errors_share_class_and_differ_by_prefix_witness :
  exc_class (AllocationError 1) = exc_class (ReleaseError 1) /\
  what (AllocationError 1) <> what (ReleaseError 1).
Proof.
  destruct (errors_share_class_and_differ_by_prefix
              (Sim.runtime true) Sim.fresh 4096 64
              (Sim.runtime true) Sim.fresh 12345
              (AllocationError 1) (ReleaseError 1))
    as [Hc1 [Hc2 [_ [_ [_ [_ [_ [_ Hne]]]]]]]].
  - reflexivity.
  - reflexivity.
  - split; [now rewrite Hc1, Hc2 | exact Hne].
Defined.

(* ===================================================================== *)
(** ** Sequences of calls *)
(* ===================================================================== *)

Lemma substring_all (s : string) : substring 0 (String.length s) s = s.
Proof. induction s as [|a s IH]; simpl; [reflexivity | now rewrite IH]. Qed.

(** Dropping a known prefix leaves the rest of the string. *)
Lemma substring_drop_prefix (p s : string) :
  substring (String.length p) (String.length (p ++ s) - String.length p) (p ++ s) = s.
Proof.
  induction p as [|a p IH]; simpl.
  - rewrite Nat.sub_0_r. apply substring_all.
  - exact IH.
Qed.

(** X1.  [free_pinned_ptr(alloc_pinned_ptr(size, flags))] on any runtime.
    When the allocation succeeds, the runtime receives cudaHostAlloc and
    then cudaFreeHost on exactly the pointer left in [ptr] by the
    allocation (the handle loses nothing on the way), in the state the
    allocation left, and the sequence returns exactly when that
    cudaFreeHost succeeds.  When the allocation fails, cudaFreeHost is
    never requested and the allocation's error is what the sequence
    raises. *)
Theorem free_of_alloc_requests (rt : Runtime) (w : World rt)
  (size : size_t) (flags : unsigned_int) :
  let r := run rt (a <- alloc_pinned_ptr size flags ;; free_pinned_ptr a) w in
  let st := alloc_status rt w size flags in
  let w' := alloc_world rt w size flags in
  let p := match alloc_stored rt w size flags with
           | Some p => p
           | None => nullptr
           end in
  (st = cudaSuccess ->
   requests r = [HostAllocRequest size flags; FreeHostRequest p] /\
   (ending r = Returned tt <-> free_status rt w' p = cudaSuccess) /\
   (ending r = Raised (ReleaseError (free_status rt w' p)) <->
    free_status rt w' p <> cudaSuccess) /\
   final r = free_world rt w' p) /\
  (st <> cudaSuccess ->
   requests r = [HostAllocRequest size flags] /\
   ending r = Raised (AllocationError st) /\
   final r = w').
Proof.
  intros r st w' p. subst r st w' p. split; intros Hst.
  - rewrite run_bind, (alloc_ending_success rt w size flags Hst).
    cbv zeta. rewrite run_alloc_pinned_ptr. cbn [requests final].
    rewrite run_free_pinned_ptr. cbn [requests ending final app].
    rewrite reinterpret_cast_round_trip.
    set (p := match alloc_stored rt w size flags with
              | Some p => p
              | None => nullptr
              end).
    set (w' := alloc_world rt w size flags).
    split; [reflexivity|].
    destruct (Z.eq_dec (free_status rt w' p) cudaSuccess) as [E|N].
    + rewrite E. simpl. repeat split; try reflexivity; intros H;
        try discriminate; now elim H.
    + apply ne_success_spec in N as B. rewrite B.
      repeat split; try reflexivity; intros H; try discriminate;
        try exact N; now elim N.
  - rewrite run_bind, (alloc_ending_failure rt w size flags Hst).
    rewrite run_alloc_pinned_ptr. now repeat split.
Qed.

Lemma free_of_alloc_requests_witness :
  requests (run (Sim.runtime false)
                (a <- alloc_pinned_ptr 256 2 ;; free_pinned_ptr a) Sim.fresh)
  = [HostAllocRequest 256 2; FreeHostRequest (VoidPtr 4096)] /\
  requests (run (Sim.runtime false)
                (a <- alloc_pinned_ptr 256 99 ;; free_pinned_ptr a) Sim.fresh)
  = [HostAllocRequest 256 99].
Proof.
  split.
  - destruct (free_of_alloc_requests (Sim.runtime false) Sim.fresh 256 2)
      as [Hok _].
    destruct Hok as [Hreq _]; [reflexivity | exact Hreq].
  - destruct (free_of_alloc_requests (Sim.runtime false) Sim.fresh 256 99)
      as [_ Hfail].
    destruct Hfail as [Hreq _]; [vm_compute; discriminate | exact Hreq].
Defined.

(** X2.  Releasing the same handle twice in a row.  The wrapper keeps no
    record of released handles: when the first release succeeds, the
    second sends the very same pointer to cudaFreeHost again, in the state
    the first release left, and ends as the runtime answers there.  When
    the first release fails, its error is raised and the second release is
    not attempted. *)
Theorem double_free_is_forwarded (rt : Runtime) (w : World rt) (ptr : uintptr_t) :
  let p := reinterpret_cast_void_ptr ptr in
  let r := run rt (bind (free_pinned_ptr ptr) (fun _ => free_pinned_ptr ptr)) w in
  let w' := free_world rt w p in
  (free_status rt w p = cudaSuccess ->
   requests r = [FreeHostRequest p; FreeHostRequest p] /\
   (ending r = Returned tt <-> free_status rt w' p = cudaSuccess) /\
   (ending r = Raised (ReleaseError (free_status rt w' p)) <->
    free_status rt w' p <> cudaSuccess) /\
   final r = free_world rt w' p) /\
  (free_status rt w p <> cudaSuccess ->
   requests r = [FreeHostRequest p] /\
   ending r = Raised (ReleaseError (free_status rt w p)) /\
   final r = w').
Proof.
  intros p r w'. subst r. split; intros Hst.
  - rewrite run_bind, (free_ending_success rt w ptr Hst).
    cbv zeta. rewrite (run_free_pinned_ptr rt w). cbn [requests final].
    rewrite run_free_pinned_ptr. cbn [requests ending final app].
    fold p. fold w'.
    split; [reflexivity|].
    destruct (Z.eq_dec (free_status rt w' p) cudaSuccess) as [E|N].
    + rewrite E. simpl. repeat split; try reflexivity; intros H;
        try discriminate; now elim H.
    + apply ne_success_spec in N as B. rewrite B.
      repeat split; try reflexivity; intros H; try discriminate;
        try exact N; now elim N.
  - rewrite run_bind, (free_ending_failure rt w ptr Hst).
    rewrite run_free_pinned_ptr. now repeat split.
Qed.

Lemma double_free_is_forwarded_witness :
  requests (run (Sim.runtime false)
                (bind (free_pinned_ptr 4096) (fun _ => free_pinned_ptr 4096))
                {| Sim.live := [(4096, 64)]; Sim.next := 8192; Sim.avail := 1024 |})
  = [FreeHostRequest (VoidPtr 4096); FreeHostRequest (VoidPtr 4096)] /\
  ending (run (Sim.runtime false)
              (bind (free_pinned_ptr 4096) (fun _ => free_pinned_ptr 4096))
              {| Sim.live := [(4096, 64)]; Sim.next := 8192; Sim.avail := 1024 |})
  = Raised (ReleaseError cudaErrorInvalidValue).
Proof.
  destruct (double_free_is_forwarded (Sim.runtime false)
              {| Sim.live := [(4096, 64)]; Sim.next := 8192; Sim.avail := 1024 |}
              4096) as [Hok _].
  destruct Hok as [Hreq [_ [Hraise _]]]; [reflexivity|].
  split; [exact Hreq|].
  apply (proj2 Hraise). vm_compute. discriminate.
Defined.

(* ===================================================================== *)
(** ** Reading the status back from the message *)
(* ===================================================================== *)

(** X3.  The message of an error raised by [alloc_pinned_ptr] determines
    the runtime's status: dropping the 22 characters of
    "cudaHostAlloc failed: " and reading the rest as a decimal number
    gives the status back, so two such errors with the same message come
    from the same status. *)
Theorem alloc_error_message_gives_status (rt : Runtime) (w : World rt)
  (size : size_t) (flags : unsigned_int) (e : exception) :
  ending (run rt (alloc_pinned_ptr size flags) w) = Raised e ->
  of_string (substring 22 (String.length (what e) - 22) (what e))
  = Some (alloc_status rt w size flags) /\
  forall (rt' : Runtime) (w' : World rt') (size' : size_t)
         (flags' : unsigned_int) (e' : exception),
    ending (run rt' (alloc_pinned_ptr size' flags') w') = Raised e' ->
    what e = what e' ->
    alloc_status rt w size flags = alloc_status rt' w' size' flags'.
Proof.
  intros H.
  assert (P : forall (rt0 : Runtime) (w0 : World rt0) s0 f0 e0,
             ending (run rt0 (alloc_pinned_ptr s0 f0) w0) = Raised e0 ->
             of_string (substring 22 (String.length (what e0) - 22) (what e0))
             = Some (alloc_status rt0 w0 s0 f0)).
  { intros rt0 w0 s0 f0 e0 H0.
    destruct (alloc_raised_inv rt0 w0 s0 f0 e0 H0) as [_ ->].
    unfold AllocationError, runtime_error. cbn [what].
    change 22%nat with (String.length "cudaHostAlloc failed: ").
    rewrite substring_drop_prefix. apply of_string_to_string. }
  split; [now apply P|].
  intros rt' w' size' flags' e' H' Hmsg.
  pose proof (P _ _ _ _ _ H) as P1. pose proof (P _ _ _ _ _ H') as P2.
  rewrite Hmsg in P1. rewrite P1 in P2. now injection P2.
Qed.

Lemma alloc_error_message_gives_status_witness :
  of_string (substring 22 (String.length "cudaHostAlloc failed: 2" - 22)
                       "cudaHostAlloc failed: 2")
  = Some (alloc_status (Sim.runtime true) Sim.fresh 1000000 0).
Proof.
  apply (alloc_error_message_gives_status (Sim.runtime true) Sim.fresh
           1000000 0 (AllocationError 2)).
  reflexivity.
Defined.

(** X4.  The message of an error raised by [free_pinned_ptr] determines
    the runtime's status: dropping the 21 characters of
    "cudaFreeHost failed: " and reading the rest as a decimal number gives
    the status back, so two such errors with the same message come from
    the same status. *)
Theorem free_error_message_gives_status (rt : Runtime) (w : World rt)
  (ptr : uintptr_t) (e : exception) :
  ending (run rt (free_pinned_ptr ptr) w) = Raised e ->
  of_string (substring 21 (String.length (what e) - 21) (what e))
  = Some (free_status rt w (reinterpret_cast_void_ptr ptr)) /\
  forall (rt' : Runtime) (w' : World rt') (ptr' : uintptr_t) (e' : exception),
    ending (run rt' (free_pinned_ptr ptr') w') = Raised e' ->
    what e = what e' ->
    free_status rt w (reinterpret_cast_void_ptr ptr)
    = free_status rt' w' (reinterpret_cast_void_ptr ptr').
Proof.
  intros H.
  assert (P : forall (rt0 : Runtime) (w0 : World rt0) p0 e0,
             ending (run rt0 (free_pinned_ptr p0) w0) = Raised e0 ->
             of_string (substring 21 (String.length (what e0) - 21) (what e0))
             = Some (free_status rt0 w0 (reinterpret_cast_void_ptr p0))).
  { intros rt0 w0 p0 e0 H0.
    destruct (free_raised_inv rt0 w0 p0 e0 H0) as [_ ->].
    unfold ReleaseError, runtime_error. cbn [what].
    change 21%nat with (String.length "cudaFreeHost failed: ").
    rewrite substring_drop_prefix. apply of_string_to_string. }
  split; [now apply P|].
  intros rt' w' ptr' e' H' Hmsg.
  pose proof (P _ _ _ _ H) as P1. pose proof (P _ _ _ _ H') as P2.
  rewrite Hmsg in P1. rewrite P1 in P2. now injection P2.
Qed.

Lemma free_error_message_gives_status_witness :
  of_string (substring 21 (String.length "cudaFreeHost failed: 1" - 21)
                       "cudaFreeHost failed: 1")
  = Some (free_status (Sim.runtime false) Sim.fresh (reinterpret_cast_void_ptr 0)).
Proof.
  apply (free_error_message_gives_status (Sim.runtime false) Sim.fresh
           0 (ReleaseError 1)).
  reflexivity.
Defined.
